(** * Task queues of pulp (src/pulp/tasks/queue/base.py)

    A shallow embedding of the task-queue classes: the abstract [TaskQueue],
    the no-frills [SimpleTaskQueue], the dispatching [SchedulingTaskQueue],
    the memory-resident [VolatileTaskQueue] and the database-resident
    [PersistentTaskQueue].

    Python methods become functions in a state-and-exception monad over a
    [world] that holds the instance attributes (the three task lists and the
    re-entrant lock) and a trace of the calls made on collaborators.  Method
    calls on [self] go through the class dictionaries along the method
    resolution order, so that a misspelt attribute or a wrong number of
    arguments shows up exactly as it does in Python. *)

From Stdlib Require Import String Ascii List Arith Bool Lia.
From Equations Require Import Equations.
Import ListNotations.
Open Scope string_scope.
Open Scope list_scope.

(** ** Values *)

(** Modelled from the spec: the class pulp.tasks.task.Task is not part of
    the sources at hand.  A task is an object with an identity and an [id]
    attribute; its methods [waiting()] and [run()] are collaborator calls
    (see [event] below).  Two tasks are the same object when they agree on
    both fields. *)
Module Task.
Record t := mk { oid : nat; id : string }.

Definition eq_dec (a b : t) : {a = b} + {a <> b}.
Proof. decide equality; [apply string_dec | apply Nat.eq_dec]. Defined.
End Task.

(** The objects that flow through the queue's methods: [None], strings
    (task ids) and tasks. *)
Inductive val :=
| VNone
| VStr (s : string)
| VTask (t : Task.t).

Definition val_eq_dec (a b : val) : {a = b} + {a <> b}.
Proof. decide equality; [apply string_dec | apply Task.eq_dec]. Defined.

(** Python's [==] on these objects. *)
Definition val_eqb (a b : val) : bool :=
  if val_eq_dec a b then true else false.

(** ** Exceptions and outcomes *)

Inductive exn :=
| NotImplementedError
| AttributeError (attr : string)
| TypeError
| ValueError
| RuntimeError.

Inductive result (A : Type) :=
| Return (a : A)
| Raise (e : exn).
Arguments Return {A} a.
Arguments Raise {A} e.

(** ** The world: instance attributes and collaborators *)

(** Calls made on objects outside the queue. *)
Inductive event :=
| SetQueue (t : Task.t)      (* task.queue = self *)
| TaskWaiting (t : Task.t)   (* task.waiting() *)
| TaskRun (t : Task.t)       (* task.run(), on the calling thread *)
| ThreadStart (t : Task.t)   (* threading.Thread(target=task.run).start() *)
| ConditionWait.             (* self._condition.wait(timeout) *)

Record world := mkWorld {
  _waiting_tasks : list val;
  _running_tasks : list val;
  _complete_tasks : list val;
  (* recursion level of self._lock for the current thread *)
  lock_level : nat;
  (* collaborator calls made so far, oldest first *)
  trace : list event;
  (* how the collaborators answer: None returns, Some e raises e *)
  answers : event -> option exn
}.

Definition M (A : Type) : Type := world -> result A * world.

Definition ret {A} (a : A) : M A := fun w => (Return a, w).
Definition raise {A} (e : exn) : M A := fun w => (Raise e, w).
Definition bind {A B} (m : M A) (k : A -> M B) : M B :=
  fun w => match m w with
           | (Return a, w') => k a w'
           | (Raise e, w') => (Raise e, w')
           end.

Notation "x <- m ;; k" := (bind m (fun x => k))
  (at level 61, m at next level, right associativity).
Notation "m ;; k" := (bind m (fun _ => k))
  (at level 61, right associativity).

(** [try: body finally: fin].  The clean-up always runs; if it raises, its
    exception wins, otherwise the outcome of the body stands. *)
Definition try_finally {A} (body : M A) (fin : M unit) : M A :=
  fun w => let (r, w') := body w in
           match fin w' with
           | (Return _, w'') => (r, w'')
           | (Raise e, w'') => (Raise e, w'')
           end.

(** A call on a collaborator: recorded in the trace, and answered as the
    world says. *)
Definition collaborator (ev : event) : M unit :=
  fun w =>
    let w' := mkWorld (_waiting_tasks w) (_running_tasks w) (_complete_tasks w)
                      (lock_level w) (trace w ++ [ev]) (answers w) in
    match answers w ev with
    | None => (Return tt, w')
    | Some e => (Raise e, w')
    end.

(** ** Python lists *)

Definition list_append (l : list val) (x : val) : list val := l ++ [x].

Definition list_contains (x : val) (l : list val) : bool :=
  existsb (val_eqb x) l.

(** [l.remove(x)]: drops the first element equal to [x]; [None] stands for
    the ValueError raised when there is none. *)
Fixpoint list_remove (x : val) (l : list val) : option (list val) :=
  match l with
  | [] => None
  | y :: l' =>
      if val_eqb y x then Some l'
      else match list_remove x l' with
           | Some r => Some (y :: r)
           | None => None
           end
  end.

(** The three collections of a queue. *)
Inductive collection := Waiting | Running | Complete.

Definition get (c : collection) (w : world) : list val :=
  match c with
  | Waiting => _waiting_tasks w
  | Running => _running_tasks w
  | Complete => _complete_tasks w
  end.

Definition put (c : collection) (l : list val) (w : world) : world :=
  match c with
  | Waiting => mkWorld l (_running_tasks w) (_complete_tasks w)
                       (lock_level w) (trace w) (answers w)
  | Running => mkWorld (_waiting_tasks w) l (_complete_tasks w)
                       (lock_level w) (trace w) (answers w)
  | Complete => mkWorld (_waiting_tasks w) (_running_tasks w) l
                        (lock_level w) (trace w) (answers w)
  end.

(** [self.<c>.append(x)] *)
Definition append (c : collection) (x : val) : M unit :=
  fun w => (Return tt, put c (list_append (get c w) x) w).

(** [self.<c>.remove(x)] *)
Definition remove (c : collection) (x : val) : M unit :=
  fun w => match list_remove x (get c w) with
           | Some l => (Return tt, put c l w)
           | None => (Raise ValueError, w)
           end.

(** [x in self.<c>] *)
Definition contains (c : collection) (x : val) : M bool :=
  fun w => (Return (list_contains x (get c w)), w).

(** ** The re-entrant lock and its condition *)

Module RLock.
Definition set_level (n : nat) (w : world) : world :=
  mkWorld (_waiting_tasks w) (_running_tasks w) (_complete_tasks w)
          n (trace w) (answers w).

Definition acquire : M unit :=
  fun w => (Return tt, set_level (S (lock_level w)) w).

(** Releasing a lock that is not held is a RuntimeError. *)
Definition release : M unit :=
  fun w => match lock_level w with
           | 0 => (Raise RuntimeError, w)
           | S n => (Return tt, set_level n w)
           end.

(** Attribute look-up on the lock object, followed by the call. *)
Definition method (name : string) : M unit :=
  if String.eqb name "acquire" then acquire
  else if String.eqb name "release" then release
  else raise (AttributeError name).
End RLock.

Module Condition.
(** [wait(timeout)] gives the lock up while it sleeps and takes it back
    before it returns; waiting without holding the lock is a
    RuntimeError. *)
Definition wait : M unit :=
  fun w => match lock_level w with
           | 0 => (Raise RuntimeError, w)
           | S _ => collaborator ConditionWait w
           end.
End Condition.

(** ** Iterators *)

(** An iterator made by [itertools.chain]: the sequences still to be
    walked, the current one first.  The sequences are the lists as they
    were when the iterator was made. *)
Definition iter := list (list val).

Definition chain (seqs : list (list val)) : iter := seqs.

(** One call of the iterator's [next()]: the element and the iterator
    afterwards, or [None] for StopIteration. *)
Fixpoint next (it : iter) : option (val * iter) :=
  match it with
  | [] => None
  | [] :: rest => next rest
  | (x :: xs) :: rest => Some (x, xs :: rest)
  end.

Fixpoint iter_size (it : iter) : nat :=
  match it with
  | [] => 0
  | s :: rest => S (List.length s + iter_size rest)
  end.

(** Everything the iterator yields until StopIteration, in order: what
    [for x in it] binds [x] to. *)
Equations iter_to_list (it : iter) : list val by wf (iter_size it) lt :=
  iter_to_list it with Logic.inspect (next it) => {
    | exist _ None _ := [];
    | exist _ (Some (x, it')) H := x :: iter_to_list it' }.
Next Obligation.
  clear iter_to_list. revert x it' H.
  induction it as [|s rest IH]; simpl; [discriminate|].
  destruct s as [|y ys]; intros x it' H.
  - apply IH in H. lia.
  - injection H as <- <-. simpl. lia.
Qed.

(** What a method hands back: an object or an iterator. *)
Inductive retval :=
| RVal (v : val)
| RIter (it : iter).

Definition none : M retval := ret (RVal VNone).

(** The elements a [for] statement walks through.  [None] and tasks are
    not iterable; a string yields its characters. *)
Definition iterate (r : retval) : M (list val) :=
  match r with
  | RIter it => ret (iter_to_list it)
  | RVal (VStr s) =>
      ret (map (fun c => VStr (String c EmptyString)) (list_ascii_of_string s))
  | RVal _ => raise TypeError
  end.

(** [for x in l: body(x)] *)
Fixpoint for_each (body : val -> M unit) (l : list val) : M unit :=
  match l with
  | [] => ret tt
  | x :: l' => body x ;; for_each body l'
  end.

(** A block of statements, run in order. *)
Fixpoint block (stmts : list (M unit)) : M unit :=
  match stmts with
  | [] => ret tt
  | s :: rest => s ;; block rest
  end.

(** The worlds a block goes through: the one after each statement, up to
    and including the statement that raises, if one does. *)
Fixpoint instants (stmts : list (M unit)) (w : world) : list world :=
  match stmts with
  | [] => []
  | s :: rest =>
      match s w with
      | (Return _, w') => w' :: instants rest w'
      | (Raise _, w') => [w']
      end
  end.

(** ** Attribute access on a task *)

(** [task.queue = self] *)
Definition set_queue (task : val) : M unit :=
  match task with
  | VTask t => collaborator (SetQueue t)
  | _ => raise (AttributeError "queue")
  end.

(** [task.waiting()] *)
Definition task_waiting (task : val) : M unit :=
  match task with
  | VTask t => collaborator (TaskWaiting t)
  | _ => raise (AttributeError "waiting")
  end.

(** [task.run()] *)
Definition task_run (task : val) : M unit :=
  match task with
  | VTask t => collaborator (TaskRun t)
  | _ => raise (AttributeError "run")
  end.

(** [thread = threading.Thread(target=task.run); thread.start()] *)
Definition thread_start (task : val) : M unit :=
  match task with
  | VTask t => collaborator (ThreadStart t)
  | _ => raise (AttributeError "run")
  end.

(** ** Classes and method calls *)

(** [self.name(args)] as seen from inside a method. *)
Definition self_t := string -> list val -> M retval.

(** A method with no parameter besides [self], or with one. *)
Inductive method :=
| Meth0 (f : self_t -> M retval)
| Meth1 (f : self_t -> val -> M retval).

Definition class_dict := list (string * method).

Fixpoint assoc (name : string) (d : class_dict) : option method :=
  match d with
  | [] => None
  | (n, m) :: d' => if String.eqb n name then Some m else assoc name d'
  end.

(** Look-up along the method resolution order. *)
Fixpoint lookup (name : string) (mro : list class_dict) : option method :=
  match mro with
  | [] => None
  | d :: rest =>
      match assoc name d with
      | Some m => Some m
      | None => lookup name rest
      end
  end.

(** Calling method [name] of an instance whose class has resolution order
    [mro].  A name no class defines is an AttributeError, a wrong number
    of arguments a TypeError; [depth] bounds the nesting of calls, as the
    interpreter's recursion limit does. *)
Fixpoint call (depth : nat) (mro : list class_dict) (name : string)
  (args : list val) : M retval :=
  match depth with
  | 0 => raise RuntimeError
  | S d =>
      match lookup name mro with
      | None => raise (AttributeError name)
      | Some (Meth0 f) =>
          match args with
          | [] => f (call d mro)
          | _ => raise TypeError
          end
      | Some (Meth1 f) =>
          match args with
          | [x] => f (call d mro) x
          | _ => raise TypeError
          end
      end
  end.

(** ** class TaskQueue(object) *)

Module TaskQueue.
Definition _waiting_task (self : self_t) (task : val) : M retval :=
  raise NotImplementedError.

Definition _running_task (self : self_t) (task : val) : M retval :=
  raise NotImplementedError.

Definition _complete_task (self : self_t) (task : val) : M retval :=
  raise NotImplementedError.

Definition _remove_task (self : self_t) (task : val) : M retval :=
  raise NotImplementedError.

Definition _all_tasks (self : self_t) : M retval :=
  raise NotImplementedError.

Definition enqueue (self : self_t) (task : val) : M retval :=
  raise NotImplementedError.

Definition run (self : self_t) (task : val) : M retval :=
  raise NotImplementedError.

Definition complete (self : self_t) (task : val) : M retval :=
  raise NotImplementedError.

Definition find (self : self_t) (task_id : val) : M retval :=
  raise NotImplementedError.

Definition dict : class_dict :=
  [ ("_waiting_task", Meth1 _waiting_task);
    ("_running_task", Meth1 _running_task);
    ("_complete_task", Meth1 _complete_task);
    ("_remove_task", Meth1 _remove_task);
    ("_all_tasks", Meth0 _all_tasks);
    ("enqueue", Meth1 enqueue);
    ("run", Meth1 run);
    ("complete", Meth1 complete);
    ("find", Meth1 find) ].

Definition mro : list class_dict := [dict].
End TaskQueue.

(** ** class SimpleTaskQueue(TaskQueue) *)

Module SimpleTaskQueue.
Definition enqueue (self : self_t) (task : val) : M retval :=
  task_waiting task ;;
  none.

Definition run (self : self_t) (task : val) : M retval :=
  task_run task ;;
  none.

Definition complete (self : self_t) (task : val) : M retval :=
  none.

Definition find (self : self_t) (task_id : val) : M retval :=
  ret (RVal VNone).

Definition dict : class_dict :=
  [ ("enqueue", Meth1 enqueue);
    ("run", Meth1 run);
    ("complete", Meth1 complete);
    ("find", Meth1 find) ].

Definition mro : list class_dict := [dict; TaskQueue.dict].
End SimpleTaskQueue.

(** ** class SchedulingTaskQueue(TaskQueue) *)

Module SchedulingTaskQueue.
(** The body of the [while True] loop of [_dispatch]. *)
Definition dispatch_cycle (self : self_t) : M unit :=
  Condition.wait ;;
  self "_initial_runs" [] ;;
  tasks <- self "_get_tasks" [] ;;
  tasks <- iterate tasks ;;
  for_each (fun task =>
              self "_pre_run" [task] ;;
              self "_run" [task] ;;
              self "_post_run" [task] ;;
              ret tt) tasks ;;
  self "_finalize_runs" [] ;;
  ret tt.

(** [while True: body], followed for [cycles] rounds; the loop has no
    exit of its own and ends early only when the body raises. *)
Fixpoint while_true (cycles : nat) (body : M unit) : M unit :=
  match cycles with
  | 0 => ret tt
  | S n => body ;; while_true n body
  end.

Definition _dispatch (cycles : nat) (self : self_t) : M retval :=
  RLock.method "acquire" ;;
  while_true cycles (dispatch_cycle self) ;;
  none.

Definition _initialize_runs (self : self_t) : M retval :=
  none.

Definition _finalize_runs (self : self_t) : M retval :=
  none.

Definition _get_tasks (self : self_t) : M retval :=
  raise NotImplementedError.

Definition _pre_run (self : self_t) : M retval :=
  none.

Definition _post_run (self : self_t) : M retval :=
  none.

Definition enqueue (self : self_t) (task : val) : M retval :=
  RLock.method "acquire" ;;
  try_finally
    (set_queue task ;;
     task_waiting task ;;
     self "_waiting_task" [task] ;;
     ret tt)
    (RLock.method "release") ;;
  none.

Definition run (self : self_t) (task : val) : M retval :=
  RLock.method "acquire" ;;
  try_finally
    (self "_running_task" [task] ;;
     thread_start task)
    (RLock.method "release") ;;
  none.

Definition complete (self : self_t) (task : val) : M retval :=
  RLock.method "acquire" ;;
  try_finally
    (self "_complete_task" [task] ;;
     ret tt)
    (RLock.method "release") ;;
  none.

(** The loop of [find]: [task.id == task_id] on each element in turn,
    returning at the first match, and [None] after the last. *)
Fixpoint find_loop (task_id : val) (tasks : list val) : M retval :=
  match tasks with
  | [] => ret (RVal VNone)
  | task :: rest =>
      match task with
      | VTask t =>
          if val_eqb (VStr (Task.id t)) task_id then ret (RVal task)
          else find_loop task_id rest
      | _ => raise (AttributeError "id")
      end
  end.

Definition find (self : self_t) (task_id : val) : M retval :=
  RLock.method "aqcuire" ;;
  try_finally
    (tasks <- self "_all_tasks" [] ;;
     tasks <- iterate tasks ;;
     find_loop task_id tasks)
    (RLock.method "release").

Definition dict (cycles : nat) : class_dict :=
  [ ("_dispatch", Meth0 (_dispatch cycles));
    ("_initialize_runs", Meth0 _initialize_runs);
    ("_finalize_runs", Meth0 _finalize_runs);
    ("_get_tasks", Meth0 _get_tasks);
    ("_pre_run", Meth0 _pre_run);
    ("_post_run", Meth0 _post_run);
    ("enqueue", Meth1 enqueue);
    ("run", Meth1 run);
    ("complete", Meth1 complete);
    ("find", Meth1 find) ].

Definition mro (cycles : nat) : list class_dict :=
  [dict cycles; TaskQueue.dict].
End SchedulingTaskQueue.

(** ** class VolatileTaskQueue(TaskQueue) *)

Module VolatileTaskQueue.
(** [__init__]: the three lists start empty. *)
Definition __init__ (answers : event -> option exn) : world :=
  mkWorld [] [] [] 0 [] answers.

Definition _waiting_task_body (task : val) : list (M unit) :=
  [ append Waiting task ].

Definition _running_task_body (task : val) : list (M unit) :=
  [ remove Waiting task;
    append Running task ].

Definition _complete_task_body (task : val) : list (M unit) :=
  [ remove Running task;
    append Complete task ].

(** [if task in self.<c>: self.<c>.remove(task)] *)
Definition remove_if_in (c : collection) (task : val) : M unit :=
  b <- contains c task ;;
  if b then remove c task else ret tt.

Definition _remove_task_body (task : val) : list (M unit) :=
  [ remove_if_in Waiting task;
    remove_if_in Running task;
    remove_if_in Complete task ].

Definition _waiting_task (self : self_t) (task : val) : M retval :=
  block (_waiting_task_body task) ;; none.

Definition _running_task (self : self_t) (task : val) : M retval :=
  block (_running_task_body task) ;; none.

Definition _complete_task (self : self_t) (task : val) : M retval :=
  block (_complete_task_body task) ;; none.

Definition _remove_task (self : self_t) (task : val) : M retval :=
  block (_remove_task_body task) ;; none.

Definition _all_tasks (self : self_t) : M retval :=
  fun w => (Return (RIter (chain [_waiting_tasks w;
                                  _running_tasks w;
                                  _complete_tasks w])), w).

Definition dict : class_dict :=
  [ ("_waiting_task", Meth1 _waiting_task);
    ("_running_task", Meth1 _running_task);
    ("_complete_task", Meth1 _complete_task);
    ("_remove_task", Meth1 _remove_task);
    ("_all_tasks", Meth0 _all_tasks) ].

Definition mro : list class_dict := [dict; TaskQueue.dict].
End VolatileTaskQueue.

(** ** class PersistentTaskQueue(TaskQueue) *)

Module PersistentTaskQueue.
Definition _waiting_task (self : self_t) (task : val) : M retval :=
  raise NotImplementedError.

Definition _running_task (self : self_t) (task : val) : M retval :=
  raise NotImplementedError.

Definition _complete_task (self : self_t) (task : val) : M retval :=
  raise NotImplementedError.

Definition _remove_task (self : self_t) (task : val) : M retval :=
  raise NotImplementedError.

Definition _all_tasks (self : self_t) : M retval :=
  raise NotImplementedError.

Definition dict : class_dict :=
  [ ("_waiting_task", Meth1 _waiting_task);
    ("_running_task", Meth1 _running_task);
    ("_complete_task", Meth1 _complete_task);
    ("_remove_task", Meth1 _remove_task);
    ("_all_tasks", Meth0 _all_tasks) ].

Definition mro : list class_dict := [dict; TaskQueue.dict].
End PersistentTaskQueue.

(** ** A derived queue *)

(** The classes above are meant to be combined: scheduling from
    [SchedulingTaskQueue], storage from [VolatileTaskQueue], and a
    [_get_tasks] of the derived class's own.  This one selects every
    waiting task:

      class FifoTaskQueue(SchedulingTaskQueue, VolatileTaskQueue):
          def _get_tasks(self):
              return iter(self._waiting_tasks)
*)
Module FifoTaskQueue.
Definition _get_tasks (self : self_t) : M retval :=
  fun w => (Return (RIter (chain [_waiting_tasks w])), w).

Definition dict : class_dict :=
  [ ("_get_tasks", Meth0 _get_tasks) ].

Definition mro (cycles : nat) : list class_dict :=
  [dict; SchedulingTaskQueue.dict cycles; VolatileTaskQueue.dict;
   TaskQueue.dict].
End FifoTaskQueue.

(** ** Observations on a world *)

(** Number of occurrences of [x] in collection [c]. *)
Definition occurrences (c : collection) (x : val) (w : world) : nat :=
  count_occ val_eq_dec (get c w) x.

(** Number of collections that hold [x]. *)
Definition holders (x : val) (w : world) : nat :=
  List.length (filter (fun c => list_contains x (get c w))
                      [Waiting; Running; Complete]).

(** [x] occurs at most once in each collection. *)
Definition at_most_once (x : val) (w : world) : bool :=
  forallb (fun c => Nat.leb (occurrences c x w) 1) [Waiting; Running; Complete].

(** [x] is in none of the collections. *)
Definition absent (x : val) (w : world) : bool :=
  forallb (fun c => negb (list_contains x (get c w)))
          [Waiting; Running; Complete].

(** The elements of a list other than [x], in order. *)
Definition others (x : val) (l : list val) : list val :=
  filter (fun y => negb (val_eqb y x)) l.

(** What [if x in l: l.remove(x)] leaves of [l]. *)
Definition list_discard (x : val) (l : list val) : list val :=
  match list_remove x l with
  | Some l' => l'
  | None => l
  end.

(** Number of occurrences of [x] in the three collections together. *)
Definition total (x : val) (w : world) : nat :=
  occurrences Waiting x w + occurrences Running x w + occurrences Complete x w.

(** No object is recorded twice, in one collection or across them. *)
Definition recorded_once (w : world) : Prop :=
  forall x, total x w <= 1.

(** A world in which a task has been recorded as waiting twice. *)
Definition twice_waiting (x : val) : world :=
  mkWorld [x; x] [] [] 0 [] (fun _ => None).

(** A world in which a task is in two collections at once. *)
Definition in_two_collections (x y : val) : world :=
  mkWorld [x; y] [y; x] [] 0 [] (fun _ => None).

(** A computation that leaves the lock as it found it, however it ends. *)
Definition neutral {A} (m : M A) : Prop :=
  forall w, lock_level (snd (m w)) = lock_level w.

(** The storage hooks that the operations of [SchedulingTaskQueue] call
    while they hold the lock. *)
Definition storage_hooks : list string :=
  ["_waiting_task"; "_running_task"; "_complete_task"].

(** An instance whose storage hooks leave the lock as they found it. *)
Definition lock_neutral (self : self_t) : Prop :=
  forall name args, In name storage_hooks -> neutral (self name args).

(** Sample objects. *)
Definition task1 : val := VTask (Task.mk 1 "t1").
Definition task2 : val := VTask (Task.mk 2 "t2").
Definition no_faults : event -> option exn := fun _ => None.
Definition empty_world : world := VolatileTaskQueue.__init__ no_faults.
Definition sample_world : world :=
  mkWorld [task2] [task1] [] 0 [] no_faults.

(** ** Sequences of storage-hook calls on the memory-resident queue *)

Inductive hook :=
| RecordWaiting (task : val)    (* _waiting_task(task) *)
| RecordRunning (task : val)    (* _running_task(task) *)
| RecordComplete (task : val)   (* _complete_task(task) *)
| RemoveTask (task : val)       (* _remove_task(task) *)
| AllTasks.                     (* _all_tasks() *)

Definition hook_body (h : hook) : list (M unit) :=
  match h with
  | RecordWaiting task => VolatileTaskQueue._waiting_task_body task
  | RecordRunning task => VolatileTaskQueue._running_task_body task
  | RecordComplete task => VolatileTaskQueue._complete_task_body task
  | RemoveTask task => VolatileTaskQueue._remove_task_body task
  | AllTasks => []
  end.

Definition hook_call (h : hook) : string * list val :=
  match h with
  | RecordWaiting task => ("_waiting_task", [task])
  | RecordRunning task => ("_running_task", [task])
  | RecordComplete task => ("_complete_task", [task])
  | RemoveTask task => ("_remove_task", [task])
  | AllTasks => ("_all_tasks", [])
  end.

(** What the caller owes each hook: a task recorded as waiting is in no
    collection yet, one recorded as running is waiting, one recorded as
    complete is running. *)
Definition precondition (h : hook) (w : world) : bool :=
  match h with
  | RecordWaiting task => absent task w
  | RecordRunning task => list_contains task (_waiting_tasks w)
  | RecordComplete task => list_contains task (_running_tasks w)
  | RemoveTask _ => true
  | AllTasks => true
  end.

(** The worlds that a sequence of hook calls goes through from [w] on,
    statement by statement; [None] when a hook is called outside its
    precondition. *)
Fixpoint history (hs : list hook) (w : world) : option (list world) :=
  match hs with
  | [] => Some []
  | h :: rest =>
      if precondition h w then
        let (name, args) := hook_call h in
        match history rest (snd (call 1 VolatileTaskQueue.mro name args w)) with
        | Some ws => Some (instants (hook_body h) w ++ ws)
        | None => None
        end
      else None
  end.

(** ** Calls in sequence *)

(** A caller invoking methods of one instance one after the other, going
    on after a call that raised: the outcome of each call, and the world
    at the end. *)
Fixpoint calls (depth : nat) (mro : list class_dict)
  (cs : list (string * list val)) (w : world) : list (result retval) * world :=
  match cs with
  | [] => ([], w)
  | (name, args) :: rest =>
      let (r, w') := call depth mro name args w in
      let (rs, w'') := calls depth mro rest w' in
      (r :: rs, w'')
  end.

(** The outcome of a method that returns [None]. *)
Definition returned_none : result retval := Return (RVal VNone).

(** A world with the same lock, trace and collaborators as [w] and the
    given collections. *)
Definition with_collections (waiting running complete : list val) (w : world)
  : world :=
  mkWorld waiting running complete (lock_level w) (trace w) (answers w).

(** A world like [w] with more collaborator calls on its trace. *)
Definition with_events (evs : list event) (w : world) : world :=
  mkWorld (_waiting_tasks w) (_running_tasks w) (_complete_tasks w)
          (lock_level w) (trace w ++ evs) (answers w).

(** [SchedulingTaskQueue] on top of [PersistentTaskQueue]:
    class C(SchedulingTaskQueue, PersistentTaskQueue). *)
Definition scheduling_persistent_mro (cycles : nat) : list class_dict :=
  [SchedulingTaskQueue.dict cycles; PersistentTaskQueue.dict; TaskQueue.dict].

(** * Properties *)

(** ** Python lists *)

Lemma list_contains_count (x : val) (l : list val) :
  list_contains x l = negb (Nat.eqb (count_occ val_eq_dec l x) 0).
Proof.
  unfold list_contains.
  induction l as [|y l IH]; simpl; [reflexivity|].
  rewrite IH. unfold val_eqb.
  destruct (val_eq_dec x y) as [->|Hn].
  - destruct (val_eq_dec y y); [reflexivity | congruence].
  - destruct (val_eq_dec y x); [congruence | reflexivity].
Qed.

Lemma list_remove_None (x : val) (l : list val) :
  list_remove x l = None <-> count_occ val_eq_dec l x = 0.
Proof.
  induction l as [|y l IH]; simpl; [tauto|].
  unfold val_eqb. destruct (val_eq_dec y x).
  - split; [discriminate | lia].
  - destruct (list_remove x l); split; intros H;
      try discriminate; try tauto.
    apply IH in H. discriminate.
Qed.

Lemma list_remove_count (x : val) (l l' : list val) :
  list_remove x l = Some l' ->
  forall y, count_occ val_eq_dec l y =
            count_occ val_eq_dec l' y + (if val_eq_dec x y then 1 else 0).
Proof.
  revert l'. induction l as [|z l IH]; simpl; [discriminate|].
  intros l' H y. unfold val_eqb in H.
  destruct (val_eq_dec z x) as [->|Hzx].
  - injection H as <-. destruct (val_eq_dec x y); lia.
  - destruct (list_remove x l) as [r|]; [|discriminate].
    injection H as <-. specialize (IH r eq_refl y). simpl.
    destruct (val_eq_dec z y); destruct (val_eq_dec x y); try lia.
Qed.

Lemma list_remove_others (x : val) (l l' : list val) :
  list_remove x l = Some l' -> others x l' = others x l.
Proof.
  revert l'. induction l as [|z l IH]; simpl; [discriminate|].
  intros l' H. destruct (val_eqb z x) eqn:E.
  - injection H as <-. reflexivity.
  - destruct (list_remove x l) as [r|]; [|discriminate].
    injection H as <-. simpl. rewrite E. simpl. f_equal. auto.
Qed.

Lemma list_append_count (x y : val) (l : list val) :
  count_occ val_eq_dec (list_append l x) y =
  count_occ val_eq_dec l y + (if val_eq_dec x y then 1 else 0).
Proof.
  unfold list_append. rewrite count_occ_app. simpl.
  destruct (val_eq_dec x y); lia.
Qed.

(** ** Iterators *)

Lemma iter_to_list_cons (s : list val) (rest : iter) :
  iter_to_list (s :: rest) = s ++ iter_to_list rest.
Proof.
  induction s as [|x xs IH].
  - rewrite (iter_to_list_equation_1 ([] :: rest)).
    rewrite (iter_to_list_equation_1 rest). reflexivity.
  - rewrite iter_to_list_equation_1. simpl. f_equal. exact IH.
Qed.

Lemma iter_to_list_chain (seqs : list (list val)) :
  iter_to_list (chain seqs) = concat seqs.
Proof.
  unfold chain. induction seqs as [|s rest IH].
  - reflexivity.
  - rewrite iter_to_list_cons, IH. reflexivity.
Qed.

(** ** The abstract classes *)

(** C8: every public operation and every storage hook of [TaskQueue], and
    every storage hook of [PersistentTaskQueue], raises
    NotImplementedError when it is called, and changes nothing. *)
Theorem abstract_methods_raise_NotImplementedError
  (depth : nat) (task task_id : val) (w : world) :
  let base := call (S depth) TaskQueue.mro in
  let persistent := call (S depth) PersistentTaskQueue.mro in
  let unimplemented := (Raise NotImplementedError, w) in
  (base "enqueue" [task] w = unimplemented /\
   base "run" [task] w = unimplemented /\
   base "complete" [task] w = unimplemented /\
   base "find" [task_id] w = unimplemented) /\
  (base "_waiting_task" [task] w = unimplemented /\
   base "_running_task" [task] w = unimplemented /\
   base "_complete_task" [task] w = unimplemented /\
   base "_remove_task" [task] w = unimplemented /\
   base "_all_tasks" [] w = unimplemented) /\
  (persistent "_waiting_task" [task] w = unimplemented /\
   persistent "_running_task" [task] w = unimplemented /\
   persistent "_complete_task" [task] w = unimplemented /\
   persistent "_remove_task" [task] w = unimplemented /\
   persistent "_all_tasks" [] w = unimplemented).
Proof. repeat split. Qed.

(** ** SchedulingTaskQueue.find *)

(** C3: [find] never reaches its loop.  Whatever the class that inherits
    it and whatever the id asked for, the call stops at the misspelt
    [self._lock.aqcuire()] with an AttributeError, the world untouched. *)
Theorem find_raises_AttributeError
  (depth cycles : nat) (bases : list class_dict) (task_id : val) (w : world) :
  call (S depth) (SchedulingTaskQueue.dict cycles :: bases) "find" [task_id] w
  = (Raise (AttributeError "aqcuire"), w).
Proof. reflexivity. Qed.

(** ** SimpleTaskQueue *)

(** C5, as stated, fails: after [enqueue] on the no-frills queue the task
    has been told that it waits, and has not been run. *)
Lemma simple_enqueue_does_not_run :
  let w := snd (call 2 SimpleTaskQueue.mro "enqueue" [task1] empty_world) in
  trace w = [TaskWaiting (Task.mk 1 "t1")] /\
  ~ In (TaskRun (Task.mk 1 "t1")) (trace w).
Proof.
  simpl. split; [reflexivity|].
  intros [H|[]]. discriminate.
Qed.

(** C5, amended: [enqueue] only calls [task.waiting()]; the task is run,
    on the caller's thread, by [run], which calls [task.run()] and
    nothing else.  Neither touches the collections or the lock. *)
Theorem simple_enqueue_waits_and_run_runs
  (depth : nat) (t : Task.t) (w : world) :
  let simple := call (S depth) SimpleTaskQueue.mro in
  let outcome ev := match answers w ev with
                    | None => Return (RVal VNone)
                    | Some e => Raise e
                    end in
  let after ev := mkWorld (_waiting_tasks w) (_running_tasks w)
                          (_complete_tasks w) (lock_level w)
                          (trace w ++ [ev]) (answers w) in
  simple "enqueue" [VTask t] w
  = (outcome (TaskWaiting t), after (TaskWaiting t)) /\
  simple "run" [VTask t] w
  = (outcome (TaskRun t), after (TaskRun t)).
Proof.
  simpl. unfold SimpleTaskQueue.enqueue, SimpleTaskQueue.run,
    task_waiting, task_run, bind, collaborator, none, ret.
  split.
  - destruct (answers w (TaskWaiting t)); reflexivity.
  - destruct (answers w (TaskRun t)); reflexivity.
Qed.

(** ** VolatileTaskQueue._running_task *)

(** C4, as stated, fails: recording as running a task that does not wait
    is not silent, it raises ValueError. *)
Lemma running_task_not_silent :
  fst (call 1 VolatileTaskQueue.mro "_running_task" [task1] empty_world)
  = Raise ValueError /\
  forall r,
    fst (call 1 VolatileTaskQueue.mro "_running_task" [task1] empty_world)
    <> Return r.
Proof. split; [reflexivity | intros r; discriminate]. Qed.

(** C4, amended: on a task that is not in the waiting list,
    [_running_task] raises ValueError (from [list.remove]) and leaves the
    three collections, and the rest of the world, as they were. *)
Theorem running_task_not_waiting_raises
  (depth : nat) (task : val) (w : world) :
  list_contains task (_waiting_tasks w) = false ->
  call (S depth) VolatileTaskQueue.mro "_running_task" [task] w
  = (Raise ValueError, w).
Proof.
  intros H. rewrite list_contains_count in H.
  apply negb_false_iff, Nat.eqb_eq, list_remove_None in H.
  simpl. unfold VolatileTaskQueue._running_task. simpl.
  unfold bind, remove. simpl. rewrite H. reflexivity.
Qed.

Lemma running_task_not_waiting_raises_witness :
  list_contains task1 (_waiting_tasks sample_world) = false /\
  call 1 VolatileTaskQueue.mro "_running_task" [task1] sample_world
  = (Raise ValueError, sample_world).
Proof.
  split; [reflexivity|].
  apply (running_task_not_waiting_raises 0 task1 sample_world).
  reflexivity.
Defined.

(** ** VolatileTaskQueue._all_tasks *)

(** C7: [_all_tasks] changes nothing and returns an iterator that yields
    the waiting tasks, then the running ones, then the complete ones. *)
Theorem all_tasks_waiting_running_complete (depth : nat) (w : world) :
  exists it,
    call (S depth) VolatileTaskQueue.mro "_all_tasks" [] w
    = (Return (RIter it), w) /\
    iter_to_list it
    = _waiting_tasks w ++ _running_tasks w ++ _complete_tasks w.
Proof.
  eexists. split; [reflexivity|].
  rewrite iter_to_list_chain. simpl. rewrite app_nil_r. reflexivity.
Qed.

(** ** SchedulingTaskQueue._dispatch *)

(** C2: the dispatch loop of a derived queue with the default hooks does
    not get through its first cycle.  After the timed wait it calls
    [self._initial_runs()], a name no class defines (the hook is
    [_initialize_runs]), so the loop ends there with an AttributeError and
    no task is looked at.  The calls further down would fail as well:
    [_pre_run] and [_post_run] take no task, and there is no [_run]. *)
Theorem dispatch_stops_at_initial_runs
  (depth cycles : nat) (task : val) (w : world) :
  let queue := call (S (S depth)) (FifoTaskQueue.mro (S cycles)) in
  fst (queue "_dispatch" [] w)
  = match answers w ConditionWait with
    | Some e => Raise e
    | None => Raise (AttributeError "_initial_runs")
    end /\
  trace (snd (queue "_dispatch" [] w)) = trace w ++ [ConditionWait] /\
  (forall c, get c (snd (queue "_dispatch" [] w)) = get c w) /\
  queue "_pre_run" [task] w = (Raise TypeError, w) /\
  queue "_run" [task] w = (Raise (AttributeError "_run"), w) /\
  queue "_post_run" [task] w = (Raise TypeError, w).
Proof.
  simpl. unfold SchedulingTaskQueue._dispatch. simpl.
  unfold SchedulingTaskQueue.dispatch_cycle, bind, RLock.acquire,
    Condition.wait, collaborator. simpl.
  destruct (answers w ConditionWait); simpl;
    (repeat split; try reflexivity; intros []; reflexivity).
Qed.

(** ** The lock around the operations of SchedulingTaskQueue *)

Lemma neutral_ret {A} (a : A) : neutral (ret a).
Proof. intros w. reflexivity. Qed.

Lemma neutral_raise {A} (e : exn) : neutral (@raise A e).
Proof. intros w. reflexivity. Qed.

Lemma neutral_bind {A B} (m : M A) (k : A -> M B) :
  neutral m -> (forall a, neutral (k a)) -> neutral (bind m k).
Proof.
  intros Hm Hk w. unfold bind. specialize (Hm w).
  destruct (m w) as [[a|e] w']; simpl in *.
  - rewrite Hk. exact Hm.
  - exact Hm.
Qed.

Lemma neutral_collaborator (ev : event) : neutral (collaborator ev).
Proof.
  intros w. unfold collaborator. destruct (answers w ev); reflexivity.
Qed.

Lemma neutral_set_queue (task : val) : neutral (set_queue task).
Proof.
  destruct task; simpl; auto using neutral_collaborator, neutral_raise.
Qed.

Lemma neutral_task_waiting (task : val) : neutral (task_waiting task).
Proof.
  destruct task; simpl; auto using neutral_collaborator, neutral_raise.
Qed.

Lemma neutral_thread_start (task : val) : neutral (thread_start task).
Proof.
  destruct task; simpl; auto using neutral_collaborator, neutral_raise.
Qed.

(** [acquire; try: body finally: release] around a body that leaves the
    lock alone gives the lock back, whether the body returns or raises. *)
Lemma locked_section_neutral {A} (body : M A) :
  neutral body ->
  neutral (RLock.method "acquire" ;;
           try_finally body (RLock.method "release") ;;
           none).
Proof.
  intros Hb w.
  change (RLock.method "acquire") with RLock.acquire.
  change (RLock.method "release") with RLock.release.
  unfold bind, RLock.acquire, try_finally.
  specialize (Hb (RLock.set_level (S (lock_level w)) w)).
  destruct (body _) as [r w']. simpl in Hb.
  unfold RLock.release. rewrite Hb.
  destruct r; reflexivity.
Qed.

(** C9: [enqueue], [run] and [complete] give the lock back on every way
    out.  Whatever the storage hooks of the instance do (return or raise)
    and however the task and the thread answer, the lock is held after
    the call exactly as many times as before it. *)
Theorem scheduling_operations_release_lock
  (self : self_t) (task : val) (w : world) :
  lock_neutral self ->
  lock_level (snd (SchedulingTaskQueue.enqueue self task w)) = lock_level w /\
  lock_level (snd (SchedulingTaskQueue.run self task w)) = lock_level w /\
  lock_level (snd (SchedulingTaskQueue.complete self task w)) = lock_level w.
Proof.
  intros Hself.
  assert (forall name, In name storage_hooks -> neutral (self name [task]))
    as Hhook by (intros name Hin; apply Hself, Hin).
  repeat split.
  - apply locked_section_neutral.
    repeat (apply neutral_bind; intros);
      auto using neutral_set_queue, neutral_task_waiting, neutral_ret.
    apply Hhook. simpl. auto.
  - apply locked_section_neutral.
    apply neutral_bind; intros; [|apply neutral_thread_start].
    apply Hhook. simpl. auto.
  - apply locked_section_neutral.
    apply neutral_bind; intros; [|apply neutral_ret].
    apply Hhook. simpl. auto.
Qed.

Lemma neutral_append (c : collection) (x : val) : neutral (append c x).
Proof. intros w. destruct c; reflexivity. Qed.

Lemma neutral_remove (c : collection) (x : val) : neutral (remove c x).
Proof.
  intros w. unfold remove.
  destruct (list_remove x (get c w)); [destruct c|]; reflexivity.
Qed.

Lemma neutral_block (stmts : list (M unit)) :
  Forall neutral stmts -> neutral (block stmts).
Proof.
  induction 1; simpl; auto using neutral_ret, neutral_bind.
Qed.

(** The storage hooks that a [FifoTaskQueue] inherits from
    [VolatileTaskQueue] leave the lock alone. *)
Lemma fifo_lock_neutral (depth cycles : nat) :
  lock_neutral (call depth (FifoTaskQueue.mro cycles)).
Proof.
  intros name args Hin.
  destruct depth as [|d]; [apply neutral_raise|].
  destruct Hin as [<-|[<-|[<-|[]]]]; simpl;
    destruct args as [|x [|y args]]; try apply neutral_raise;
    (apply neutral_bind; [apply neutral_block | intros; apply neutral_ret]);
    repeat apply Forall_cons; try apply Forall_nil;
    auto using neutral_append, neutral_remove.
Qed.

Lemma scheduling_operations_release_lock_witness :
  let queue := call 2 (FifoTaskQueue.mro 1) in
  lock_neutral (call 1 (FifoTaskQueue.mro 1)) /\
  (fst (queue "run" [task1] empty_world) = Raise ValueError /\
   fst (queue "enqueue" [task1] empty_world) = Return (RVal VNone)) /\
  lock_level (snd (queue "enqueue" [task1] empty_world)) = 0 /\
  lock_level (snd (queue "run" [task1] empty_world)) = 0 /\
  lock_level (snd (queue "complete" [task1] empty_world)) = 0.
Proof.
  cbv zeta. split; [apply fifo_lock_neutral|].
  split; [split; reflexivity|].
  apply (scheduling_operations_release_lock
           (call 1 (FifoTaskQueue.mro 1)) task1 empty_world).
  apply fifo_lock_neutral.
Defined.

(** ** VolatileTaskQueue._remove_task *)

Lemma list_discard_count (x y : val) (l : list val) :
  count_occ val_eq_dec (list_discard x l) y =
  count_occ val_eq_dec l y - (if val_eq_dec x y then 1 else 0).
Proof.
  unfold list_discard. destruct (list_remove x l) as [l'|] eqn:E.
  - rewrite (list_remove_count x l l' E y). lia.
  - apply list_remove_None in E.
    destruct (val_eq_dec x y); subst; lia.
Qed.

Lemma list_discard_others (x : val) (l : list val) :
  others x (list_discard x l) = others x l.
Proof.
  unfold list_discard. destruct (list_remove x l) eqn:E;
    eauto using list_remove_others.
Qed.

Lemma list_discard_absent (x : val) (l : list val) :
  count_occ val_eq_dec l x = 0 -> list_discard x l = l.
Proof.
  intros H. unfold list_discard.
  apply list_remove_None in H. rewrite H. reflexivity.
Qed.

Lemma remove_if_in_discards (c : collection) (x : val) (w : world) :
  VolatileTaskQueue.remove_if_in c x w
  = (Return tt, put c (list_discard x (get c w)) w).
Proof.
  unfold VolatileTaskQueue.remove_if_in, bind, contains, remove, list_discard.
  rewrite list_contains_count.
  destruct (list_remove x (get c w)) as [l|] eqn:E.
  - pose proof (list_remove_count x _ _ E x) as Hc.
    destruct (val_eq_dec x x); [|congruence].
    destruct (Nat.eqb_spec (count_occ val_eq_dec (get c w) x) 0); [lia|].
    simpl. rewrite E. reflexivity.
  - pose proof E as E'. apply list_remove_None in E'. rewrite E'. simpl.
    destruct w; destruct c; reflexivity.
Qed.

(** [_remove_task] always returns, and discards one occurrence of the
    task from each collection. *)
Lemma remove_task_discards (self : self_t) (x : val) (w : world) :
  VolatileTaskQueue._remove_task self x w
  = (Return (RVal VNone),
     mkWorld (list_discard x (_waiting_tasks w))
             (list_discard x (_running_tasks w))
             (list_discard x (_complete_tasks w))
             (lock_level w) (trace w) (answers w)).
Proof.
  unfold VolatileTaskQueue._remove_task, VolatileTaskQueue._remove_task_body.
  simpl. unfold bind. rewrite !remove_if_in_discards. reflexivity.
Qed.

Lemma at_most_once_spec (x : val) (w : world) :
  at_most_once x w = true <->
  (forall c, count_occ val_eq_dec (get c w) x <= 1).
Proof.
  unfold at_most_once, occurrences. simpl.
  rewrite !andb_true_iff, !Nat.leb_le. split.
  - intros (Hw & Hr & Hc & _) [| |]; assumption.
  - intros H. pose proof (H Waiting). pose proof (H Running).
    pose proof (H Complete). auto.
Qed.

Lemma absent_spec (x : val) (w : world) :
  absent x w = true <->
  (forall c, count_occ val_eq_dec (get c w) x = 0).
Proof.
  unfold absent. simpl. rewrite !list_contains_count, !negb_involutive.
  rewrite !andb_true_iff, !Nat.eqb_eq. split.
  - intros (Hw & Hr & Hc & _) [| |]; assumption.
  - intros H. pose proof (H Waiting). pose proof (H Running).
    pose proof (H Complete). auto.
Qed.

(** C6, as stated, fails: where a task has been recorded as waiting
    twice, the second [_remove_task] removes what the first one left. *)
Lemma remove_task_twice_differs :
  let rm w := snd (call 1 VolatileTaskQueue.mro "_remove_task" [task1] w) in
  _waiting_tasks (rm (twice_waiting task1)) = [task1] /\
  _waiting_tasks (rm (rm (twice_waiting task1))) = [] /\
  rm (rm (twice_waiting task1)) <> rm (twice_waiting task1).
Proof.
  simpl. repeat split.
  intros H. apply (f_equal _waiting_tasks) in H. discriminate H.
Qed.

(** C6, amended: in a world where the task occurs at most once in each
    collection, removing it twice leaves what removing it once leaves;
    and in any world, removing a task that is in no collection changes
    nothing.  [_remove_task] returns normally in all cases. *)
Theorem remove_task_idempotent (depth : nat) (task : val) (w : world) :
  let rm := call (S depth) VolatileTaskQueue.mro "_remove_task" [task] in
  fst (rm w) = Return (RVal VNone) /\
  (at_most_once task w = true -> rm (snd (rm w)) = rm w) /\
  (absent task w = true -> rm w = (Return (RVal VNone), w)).
Proof.
  cbv zeta.
  change (call (S depth) VolatileTaskQueue.mro "_remove_task" [task])
    with (VolatileTaskQueue._remove_task
            (call depth VolatileTaskQueue.mro) task).
  rewrite !remove_task_discards. simpl. split; [reflexivity|]. split.
  - intros H. rewrite at_most_once_spec in H.
    f_equal. f_equal;
      apply list_discard_absent; rewrite list_discard_count;
      destruct (val_eq_dec task task); try congruence.
    + specialize (H Waiting). simpl in H. lia.
    + specialize (H Running). simpl in H. lia.
    + specialize (H Complete). simpl in H. lia.
  - intros H. rewrite absent_spec in H.
    pose proof (H Waiting) as Hw. pose proof (H Running) as Hr.
    pose proof (H Complete) as Hc. simpl in Hw, Hr, Hc.
    rewrite !list_discard_absent by assumption.
    destruct w; reflexivity.
Qed.

Lemma remove_task_idempotent_witness :
  let rm := call 1 VolatileTaskQueue.mro "_remove_task" [task1] in
  at_most_once task1 (in_two_collections task1 task2) = true /\
  rm (snd (rm (in_two_collections task1 task2)))
  = rm (in_two_collections task1 task2) /\
  absent task1 empty_world = true /\
  rm empty_world = (Return (RVal VNone), empty_world).
Proof.
  cbv zeta. split; [reflexivity|]. split.
  - apply (remove_task_idempotent 0 task1 (in_two_collections task1 task2)).
    reflexivity.
  - split; [reflexivity|].
    apply (remove_task_idempotent 0 task1 empty_world). reflexivity.
Defined.

(** C10, as stated, fails: where a task has been recorded as waiting
    twice, it is still waiting after [_remove_task]. *)
Lemma remove_task_leaves_duplicate :
  let w := snd (call 1 VolatileTaskQueue.mro "_remove_task" [task1]
                     (twice_waiting task1)) in
  list_contains task1 (_waiting_tasks w) = true /\
  absent task1 w <> true.
Proof. simpl. split; [reflexivity | discriminate]. Qed.

(** C10, amended: [_remove_task] takes one occurrence of the task out of
    each collection that holds it.  In any world the other objects keep
    their collections and their order there; and where the task occurs at
    most once in each collection (it may be in several collections at
    once) it is in none of them afterwards. *)
Theorem remove_task_removes_and_keeps_others
  (depth : nat) (task : val) (w : world) :
  let w' := snd (call (S depth) VolatileTaskQueue.mro "_remove_task" [task] w) in
  (forall c, others task (get c w') = others task (get c w)) /\
  (at_most_once task w = true -> absent task w' = true).
Proof.
  cbv zeta.
  change (call (S depth) VolatileTaskQueue.mro "_remove_task" [task])
    with (VolatileTaskQueue._remove_task
            (call depth VolatileTaskQueue.mro) task).
  rewrite remove_task_discards. simpl. split.
  - intros [| |]; simpl; apply list_discard_others.
  - intros H. rewrite at_most_once_spec in H. apply absent_spec.
    intros c. specialize (H c).
    destruct c; simpl in *; rewrite list_discard_count;
      destruct (val_eq_dec task task); try congruence; lia.
Qed.

Lemma remove_task_removes_and_keeps_others_witness :
  let w := in_two_collections task1 task2 in
  let w' := snd (call 1 VolatileTaskQueue.mro "_remove_task" [task1] w) in
  at_most_once task1 w = true /\ absent task1 w' = true.
Proof.
  cbv zeta. split; [reflexivity|].
  apply (remove_task_removes_and_keeps_others
           0 task1 (in_two_collections task1 task2)).
  reflexivity.
Defined.

(** ** At most one collection per task *)

Lemma holders_le_total (x : val) (w : world) : holders x w <= total x w.
Proof.
  unfold holders, total, occurrences. simpl.
  rewrite !list_contains_count.
  destruct (Nat.eqb_spec (count_occ val_eq_dec (_waiting_tasks w) x) 0);
    destruct (Nat.eqb_spec (count_occ val_eq_dec (_running_tasks w) x) 0);
    destruct (Nat.eqb_spec (count_occ val_eq_dec (_complete_tasks w) x) 0);
    simpl; lia.
Qed.

Lemma contains_count_pos (x : val) (l : list val) :
  list_contains x l = true -> 1 <= count_occ val_eq_dec l x.
Proof.
  rewrite list_contains_count.
  destruct (Nat.eqb_spec (count_occ val_eq_dec l x) 0);
    [discriminate | lia].
Qed.

Lemma contains_remove (x : val) (l : list val) :
  list_contains x l = true -> list_remove x l = Some (list_discard x l).
Proof.
  intros H. apply contains_count_pos in H. unfold list_discard.
  destruct (list_remove x l) eqn:E; [reflexivity|].
  apply list_remove_None in E. lia.
Qed.

(** Under its precondition a hook returns normally. *)
Lemma hook_returns (h : hook) (w : world) :
  precondition h w = true ->
  exists r,
    fst (call 1 VolatileTaskQueue.mro (fst (hook_call h)) (snd (hook_call h)) w)
    = Return r.
Proof.
  destruct h as [x|x|x|x|]; simpl; intros H.
  - eexists; reflexivity.
  - unfold VolatileTaskQueue._running_task. simpl.
    unfold bind, remove. simpl. rewrite (contains_remove _ _ H).
    eexists; reflexivity.
  - unfold VolatileTaskQueue._complete_task. simpl.
    unfold bind, remove. simpl. rewrite (contains_remove _ _ H).
    eexists; reflexivity.
  - rewrite remove_task_discards. eexists; reflexivity.
  - eexists; reflexivity.
Qed.

Ltac count_cases y :=
  unfold total, occurrences; simpl;
  rewrite ?list_append_count, ?list_discard_count;
  repeat match goal with
         | |- context [val_eq_dec ?a y] => destruct (val_eq_dec a y); subst
         end;
  try lia.

(** Each hook, called under its precondition, keeps every object recorded
    at most once, at each of its statements and at its end. *)
Lemma hook_keeps_recorded_once (h : hook) (w : world) :
  precondition h w = true ->
  recorded_once w ->
  Forall recorded_once (instants (hook_body h) w) /\
  recorded_once
    (snd (call 1 VolatileTaskQueue.mro (fst (hook_call h)) (snd (hook_call h)) w)).
Proof.
  intros Hpre Hinv.
  destruct h as [x|x|x|x|]; simpl in Hpre |- *.
  - (* _waiting_task *)
    rewrite absent_spec in Hpre.
    pose proof (Hpre Waiting) as Hw. pose proof (Hpre Running) as Hr.
    pose proof (Hpre Complete) as Hc. simpl in Hw, Hr, Hc.
    assert (recorded_once (put Waiting (list_append (_waiting_tasks w) x) w))
      as Hgoal.
    { intros y. specialize (Hinv y). revert Hinv. count_cases y. }
    split; [apply Forall_cons; [exact Hgoal | apply Forall_nil] | exact Hgoal].
  - (* _running_task *)
    pose proof (contains_count_pos _ _ Hpre) as Hpos.
    unfold VolatileTaskQueue._running_task. simpl.
    unfold bind, remove. simpl. rewrite (contains_remove _ _ Hpre). simpl.
    assert (recorded_once
              (put Waiting (list_discard x (_waiting_tasks w)) w)) as H1.
    { intros y. specialize (Hinv y). revert Hinv. count_cases y. }
    assert (recorded_once
              (put Running (list_append (_running_tasks w) x)
                 (put Waiting (list_discard x (_waiting_tasks w)) w))) as H2.
    { intros y. specialize (Hinv y). revert Hinv Hpos. count_cases y. }
    split; [auto using Forall_cons, Forall_nil | exact H2].
  - (* _complete_task *)
    pose proof (contains_count_pos _ _ Hpre) as Hpos.
    unfold VolatileTaskQueue._complete_task. simpl.
    unfold bind, remove. simpl. rewrite (contains_remove _ _ Hpre). simpl.
    assert (recorded_once
              (put Running (list_discard x (_running_tasks w)) w)) as H1.
    { intros y. specialize (Hinv y). revert Hinv. count_cases y. }
    assert (recorded_once
              (put Complete (list_append (_complete_tasks w) x)
                 (put Running (list_discard x (_running_tasks w)) w))) as H2.
    { intros y. specialize (Hinv y). revert Hinv Hpos. count_cases y. }
    split; [auto using Forall_cons, Forall_nil | exact H2].
  - (* _remove_task *)
    rewrite remove_task_discards. rewrite !remove_if_in_discards. simpl.
    split; [repeat apply Forall_cons; try apply Forall_nil|];
      intros y; specialize (Hinv y); revert Hinv; count_cases y.
  - (* _all_tasks *)
    split; [constructor | exact Hinv].
Qed.

Lemma history_keeps_recorded_once (hs : list hook) :
  forall (w : world) (ws : list world),
    recorded_once w ->
    history hs w = Some ws ->
    Forall recorded_once ws.
Proof.
  induction hs as [|h rest IH]; simpl; intros w ws Hinv Hhist.
  - injection Hhist as <-. constructor.
  - destruct (precondition h w) eqn:Hpre; [|discriminate].
    destruct (hook_keeps_recorded_once h w Hpre Hinv) as [Hmid Hend].
    destruct (hook_call h) as [name args]. simpl in Hend.
    destruct (history rest _) as [ws'|] eqn:Hrest; [|discriminate].
    injection Hhist as <-. apply Forall_app. split; [exact Hmid|].
    eapply IH; eassumption.
Qed.

Lemma init_recorded_once (answers : event -> option exn) :
  recorded_once (VolatileTaskQueue.__init__ answers).
Proof. intros x. unfold total, occurrences. simpl. lia. Qed.

(** C1: start from the empty memory-resident queue and call the storage
    hooks in any order, each under its precondition.  In every world gone
    through, between any two statements of any hook, every task is in at
    most one of the three collections. *)
Theorem task_in_at_most_one_collection
  (answers : event -> option exn) (hs : list hook) (ws : list world) :
  history hs (VolatileTaskQueue.__init__ answers) = Some ws ->
  forall w, In w (VolatileTaskQueue.__init__ answers :: ws) ->
  forall task, holders task w <= 1.
Proof.
  intros Hhist w Hin task.
  assert (recorded_once w) as Hw.
  { destruct Hin as [<-|Hin]; [apply init_recorded_once|].
    pose proof (history_keeps_recorded_once hs _ ws
                  (init_recorded_once answers) Hhist) as Hall.
    rewrite Forall_forall in Hall. auto. }
  pose proof (holders_le_total task w). specialize (Hw task). lia.
Qed.

Lemma task_in_at_most_one_collection_witness :
  let hs := [RecordWaiting task1; RecordWaiting task2; RecordRunning task1;
             AllTasks; RecordComplete task1; RemoveTask task2] in
  exists ws,
    history hs (VolatileTaskQueue.__init__ no_faults) = Some ws /\
    List.length ws = 9 /\
    forall w, In w (VolatileTaskQueue.__init__ no_faults :: ws) ->
    forall task, holders task w <= 1.
Proof.
  cbv zeta. eexists. split; [reflexivity|]. split; [reflexivity|].
  apply (task_in_at_most_one_collection no_faults
           [RecordWaiting task1; RecordWaiting task2; RecordRunning task1;
            AllTasks; RecordComplete task1; RemoveTask task2]).
  reflexivity.
Defined.

Lemma last_cons (w w' : world) (l : list world) :
  last (w' :: l) w = last l w'.
Proof.
  revert w w'. induction l as [|a l IH]; intros w w'; [reflexivity|].
  change (last (w' :: a :: l) w) with (last (a :: l) w).
  rewrite (IH w a), (IH w' a). reflexivity.
Qed.

(** The last world a block goes through is the world it ends in. *)
Lemma instants_last (stmts : list (M unit)) (w : world) :
  last (instants stmts w) w = snd (block stmts w).
Proof.
  revert w. induction stmts as [|s rest IH]; intros w; [reflexivity|].
  simpl. unfold bind. destruct (s w) as [[[]|e] w'].
  - rewrite last_cons. apply IH.
  - reflexivity.
Qed.

Lemma snd_then_none (m : M unit) (w : world) :
  snd ((m ;; none) w) = snd (m w).
Proof. unfold bind. destruct (m w) as [[[]|e] w']; reflexivity. Qed.

(** The world in which a hook called on the queue ends is the last of
    the worlds its body goes through. *)
Lemma hook_call_ends_body (h : hook) (w : world) :
  snd (call 1 VolatileTaskQueue.mro (fst (hook_call h)) (snd (hook_call h)) w)
  = last (instants (hook_body h) w) w.
Proof.
  rewrite instants_last.
  destruct h as [x|x|x|x|].
  - exact (snd_then_none (block (hook_body (RecordWaiting x))) w).
  - exact (snd_then_none (block (hook_body (RecordRunning x))) w).
  - exact (snd_then_none (block (hook_body (RecordComplete x))) w).
  - exact (snd_then_none (block (hook_body (RemoveTask x))) w).
  - reflexivity.
Qed.

(** * Further properties of the memory-resident queue *)

Lemma world_eta (w : world) :
  mkWorld (_waiting_tasks w) (_running_tasks w) (_complete_tasks w)
          (lock_level w) (trace w) (answers w) = w.
Proof. destruct w; reflexivity. Qed.

Lemma list_remove_append_absent (x : val) (l : list val) :
  count_occ val_eq_dec l x = 0 -> list_remove x (list_append l x) = Some l.
Proof.
  unfold list_append. induction l as [|y l IH]; simpl; intros H.
  - unfold val_eqb. destruct (val_eq_dec x x); congruence.
  - unfold val_eqb. destruct (val_eq_dec y x); [discriminate|].
    rewrite IH by assumption. reflexivity.
Qed.

Lemma list_discard_append_absent (x : val) (l : list val) :
  count_occ val_eq_dec l x = 0 -> list_discard x (list_append l x) = l.
Proof.
  intros H. unfold list_discard.
  rewrite list_remove_append_absent by assumption. reflexivity.
Qed.

Lemma not_contains_count (x : val) (l : list val) :
  list_contains x l = false -> count_occ val_eq_dec l x = 0.
Proof.
  rewrite list_contains_count. intros H.
  apply negb_false_iff, Nat.eqb_eq in H. exact H.
Qed.

(** What the three recording hooks do, as equations on worlds. *)
Lemma waiting_task_appends (self : self_t) (x : val) (w : world) :
  VolatileTaskQueue._waiting_task self x w
  = (returned_none,
     with_collections (list_append (_waiting_tasks w) x)
                      (_running_tasks w) (_complete_tasks w) w).
Proof. reflexivity. Qed.

Lemma running_task_moves (self : self_t) (x : val) (w : world) :
  list_contains x (_waiting_tasks w) = true ->
  VolatileTaskQueue._running_task self x w
  = (returned_none,
     with_collections (list_discard x (_waiting_tasks w))
                      (list_append (_running_tasks w) x)
                      (_complete_tasks w) w).
Proof.
  intros H. unfold VolatileTaskQueue._running_task. simpl.
  unfold bind, remove. simpl. rewrite (contains_remove _ _ H). reflexivity.
Qed.

Lemma complete_task_moves (self : self_t) (x : val) (w : world) :
  list_contains x (_running_tasks w) = true ->
  VolatileTaskQueue._complete_task self x w
  = (returned_none,
     with_collections (_waiting_tasks w)
                      (list_discard x (_running_tasks w))
                      (list_append (_complete_tasks w) x) w).
Proof.
  intros H. unfold VolatileTaskQueue._complete_task. simpl.
  unfold bind, remove. simpl. rewrite (contains_remove _ _ H). reflexivity.
Qed.

Lemma running_task_raises (self : self_t) (x : val) (w : world) :
  list_contains x (_waiting_tasks w) = false ->
  VolatileTaskQueue._running_task self x w = (Raise ValueError, w).
Proof.
  intros H. apply not_contains_count, list_remove_None in H.
  unfold VolatileTaskQueue._running_task. simpl.
  unfold bind, remove. simpl. rewrite H. reflexivity.
Qed.

Lemma complete_task_raises (self : self_t) (x : val) (w : world) :
  list_contains x (_running_tasks w) = false ->
  VolatileTaskQueue._complete_task self x w = (Raise ValueError, w).
Proof.
  intros H. apply not_contains_count, list_remove_None in H.
  unfold VolatileTaskQueue._complete_task. simpl.
  unfold bind, remove. simpl. rewrite H. reflexivity.
Qed.

(** X1: recording as complete a task that is not running raises
    ValueError and leaves the world as it was. *)
Theorem complete_task_not_running_raises
  (depth : nat) (task : val) (w : world) :
  list_contains task (_running_tasks w) = false ->
  call (S depth) VolatileTaskQueue.mro "_complete_task" [task] w
  = (Raise ValueError, w).
Proof.
  intros H.
  exact (complete_task_raises (call depth VolatileTaskQueue.mro) task w H).
Qed.

Lemma complete_task_not_running_raises_witness :
  list_contains task2 (_running_tasks sample_world) = false /\
  call 1 VolatileTaskQueue.mro "_complete_task" [task2] sample_world
  = (Raise ValueError, sample_world).
Proof.
  split; [reflexivity|].
  apply (complete_task_not_running_raises 0 task2 sample_world).
  reflexivity.
Defined.





Lemma calls_cons (depth : nat) (mro : list class_dict) (name : string)
  (args : list val) (rest : list (string * list val)) (w : world) :
  calls depth mro ((name, args) :: rest) w
  = (fst (call depth mro name args w)
       :: fst (calls depth mro rest (snd (call depth mro name args w))),
     snd (calls depth mro rest (snd (call depth mro name args w)))).
Proof.
  simpl. destruct (call depth mro name args w) as [r w']. simpl.
  destruct (calls depth mro rest w'). reflexivity.
Qed.

(** X4: recording as waiting a task that is in no collection and then
    removing it gives back the world one started from; both calls
    return [None]. *)
Theorem waiting_then_remove_round_trip
  (depth : nat) (task : val) (w : world) :
  absent task w = true ->
  calls (S depth) VolatileTaskQueue.mro
        [("_waiting_task", [task]); ("_remove_task", [task])] w
  = ([returned_none; returned_none], w).
Proof.
  intros H. rewrite absent_spec in H.
  pose proof (H Waiting) as Hw. pose proof (H Running) as Hr.
  pose proof (H Complete) as Hc. simpl in Hw, Hr, Hc.
  rewrite !calls_cons.
  change (call (S depth) VolatileTaskQueue.mro "_waiting_task" [task] w)
    with (VolatileTaskQueue._waiting_task
            (call depth VolatileTaskQueue.mro) task w).
  rewrite waiting_task_appends. cbn [fst snd].
  match goal with
  | |- context [call (S depth) VolatileTaskQueue.mro "_remove_task" [task] ?v] =>
      change (call (S depth) VolatileTaskQueue.mro "_remove_task" [task] v)
        with (VolatileTaskQueue._remove_task
                (call depth VolatileTaskQueue.mro) task v)
  end.
  rewrite remove_task_discards. cbn.
  rewrite list_discard_append_absent by assumption.
  rewrite !list_discard_absent by assumption.
  rewrite world_eta. reflexivity.
Qed.

Lemma waiting_then_remove_round_trip_witness :
  let w := mkWorld [task2] [] [task2] 3 [ConditionWait] no_faults in
  absent task1 w = true /\
  calls 1 VolatileTaskQueue.mro
        [("_waiting_task", [task1]); ("_remove_task", [task1])] w
  = ([returned_none; returned_none], w).
Proof.
  cbv zeta. split; [reflexivity|].
  apply (waiting_then_remove_round_trip 0 task1). reflexivity.
Defined.

Lemma volatile_call_waiting (depth : nat) (x : val) (w : world) :
  call (S depth) VolatileTaskQueue.mro "_waiting_task" [x] w
  = VolatileTaskQueue._waiting_task (call depth VolatileTaskQueue.mro) x w.
Proof. reflexivity. Qed.

Lemma volatile_call_running (depth : nat) (x : val) (w : world) :
  call (S depth) VolatileTaskQueue.mro "_running_task" [x] w
  = VolatileTaskQueue._running_task (call depth VolatileTaskQueue.mro) x w.
Proof. reflexivity. Qed.

Lemma volatile_call_complete (depth : nat) (x : val) (w : world) :
  call (S depth) VolatileTaskQueue.mro "_complete_task" [x] w
  = VolatileTaskQueue._complete_task (call depth VolatileTaskQueue.mro) x w.
Proof. reflexivity. Qed.

Lemma volatile_call_remove (depth : nat) (x : val) (w : world) :
  call (S depth) VolatileTaskQueue.mro "_remove_task" [x] w
  = VolatileTaskQueue._remove_task (call depth VolatileTaskQueue.mro) x w.
Proof. reflexivity. Qed.

Lemma contains_append (x : val) (l : list val) :
  list_contains x (list_append l x) = true.
Proof.
  rewrite list_contains_count, list_append_count.
  destruct (val_eq_dec x x); [|congruence].
  destruct (Nat.eqb_spec (count_occ val_eq_dec l x + 1) 0); [lia|reflexivity].
Qed.

(** X5: a task that is neither waiting nor running, recorded as waiting,
    then as running, then as complete, ends at the end of the complete
    list; the three hooks return [None] and the waiting and running lists
    are again what they were. *)
Theorem recording_hooks_lifecycle (depth : nat) (task : val) (w : world) :
  list_contains task (_waiting_tasks w) = false ->
  list_contains task (_running_tasks w) = false ->
  calls (S depth) VolatileTaskQueue.mro
        [("_waiting_task", [task]); ("_running_task", [task]);
         ("_complete_task", [task])] w
  = ([returned_none; returned_none; returned_none],
     with_collections (_waiting_tasks w) (_running_tasks w)
                      (_complete_tasks w ++ [task]) w).
Proof.
  intros Hw Hr. apply not_contains_count in Hw, Hr.
  rewrite !calls_cons.
  rewrite volatile_call_waiting, waiting_task_appends. cbn [fst snd].
  rewrite volatile_call_running, running_task_moves
    by (cbn; apply contains_append).
  cbn [fst snd with_collections _waiting_tasks _running_tasks
       _complete_tasks lock_level trace answers].
  rewrite volatile_call_complete, complete_task_moves
    by (cbn; apply contains_append).
  cbn [fst snd with_collections _waiting_tasks _running_tasks
       _complete_tasks lock_level trace answers calls].
  rewrite !list_discard_append_absent by assumption. reflexivity.
Qed.

Lemma recording_hooks_lifecycle_witness :
  list_contains task1 (_waiting_tasks (twice_waiting task2)) = false /\
  list_contains task1 (_running_tasks (twice_waiting task2)) = false /\
  calls 1 VolatileTaskQueue.mro
        [("_waiting_task", [task1]); ("_running_task", [task1]);
         ("_complete_task", [task1])] (twice_waiting task2)
  = ([returned_none; returned_none; returned_none],
     with_collections [task2; task2] [] [task1] (twice_waiting task2)).
Proof.
  split; [reflexivity|]. split; [reflexivity|].
  apply (recording_hooks_lifecycle 0 task1 (twice_waiting task2));
    reflexivity.
Defined.

(** X6: whatever is called on a memory-resident queue, with whatever
    arguments, the lock, the trace of collaborator calls and the
    collaborators stay as they were: its methods touch nothing but the
    three lists. *)
Theorem volatile_touches_only_collections
  (depth : nat) (name : string) (args : list val) (w : world) :
  let w' := snd (call depth VolatileTaskQueue.mro name args w) in
  lock_level w' = lock_level w /\
  trace w' = trace w /\
  answers w' = answers w.
Proof.
  cbv zeta. destruct depth as [|d]; [repeat split|].
  unfold VolatileTaskQueue.mro, VolatileTaskQueue.dict, TaskQueue.dict.
  cbn [call lookup assoc].
  repeat match goal with
         | |- context [String.eqb ?n name] => destruct (String.eqb n name)
         end;
    try (repeat split; fail);
    destruct args as [|x [|y args]]; try (repeat split; fail);
    try (rewrite remove_task_discards; repeat split; fail);
    unfold VolatileTaskQueue._running_task, VolatileTaskQueue._complete_task,
      VolatileTaskQueue._running_task_body,
      VolatileTaskQueue._complete_task_body, block, bind, remove, append;
    match goal with
    | |- context [list_remove ?a ?l] => destruct (list_remove a l)
    end; repeat split.
Qed.

Lemma history_calls_return (hs : list hook) :
  forall (w : world) (ws : list world),
    history hs w = Some ws ->
    Forall (fun r => exists v, r = Return v)
           (fst (calls 1 VolatileTaskQueue.mro (map hook_call hs) w)).
Proof.
  induction hs as [|h rest IH]; intros w ws Hhist; [constructor|].
  simpl in Hhist. destruct (precondition h w) eqn:Hpre; [|discriminate].
  pose proof (hook_returns h w Hpre) as Hret.
  change (map hook_call (h :: rest)) with (hook_call h :: map hook_call rest).
  destruct (hook_call h) as [name args]. simpl in Hret.
  destruct (history rest _) as [ws'|] eqn:Hrest; [|discriminate].
  rewrite calls_cons. cbn [fst]. constructor; [exact Hret|].
  eapply IH. exact Hrest.
Qed.

(** X7: called in any order from the empty queue, each under its
    precondition, the storage hooks of the memory-resident queue all
    return: none of them raises. *)
Theorem hooks_under_preconditions_return
  (answers : event -> option exn) (hs : list hook) (ws : list world) :
  history hs (VolatileTaskQueue.__init__ answers) = Some ws ->
  Forall (fun r => exists v, r = Return v)
         (fst (calls 1 VolatileTaskQueue.mro (map hook_call hs)
                     (VolatileTaskQueue.__init__ answers))).
Proof. apply history_calls_return. Qed.

Lemma hooks_under_preconditions_return_witness :
  let hs := [RecordWaiting task1; RecordRunning task1; AllTasks;
             RecordComplete task1; RemoveTask task1] in
  exists ws,
    history hs (VolatileTaskQueue.__init__ no_faults) = Some ws /\
    Forall (fun r => exists v, r = Return v)
           (fst (calls 1 VolatileTaskQueue.mro (map hook_call hs)
                       (VolatileTaskQueue.__init__ no_faults))).
Proof.
  cbv zeta. eexists. split; [reflexivity|].
  eapply (hooks_under_preconditions_return no_faults
            [RecordWaiting task1; RecordRunning task1; AllTasks;
             RecordComplete task1; RemoveTask task1]).
  reflexivity.
Defined.

Lemma reachable_recorded_once
  (answers : event -> option exn) (hs : list hook) (ws : list world) :
  history hs (VolatileTaskQueue.__init__ answers) = Some ws ->
  forall w, In w (VolatileTaskQueue.__init__ answers :: ws) ->
  recorded_once w.
Proof.
  intros Hhist w [<-|Hin]; [apply init_recorded_once|].
  pose proof (history_keeps_recorded_once hs _ ws
                (init_recorded_once answers) Hhist) as Hall.
  rewrite Forall_forall in Hall. auto.
Qed.

(** X8: in every world that the storage hooks, called under their
    preconditions from the empty queue, go through, no task occurs twice
    in a collection, and [_remove_task] therefore takes the task out for
    good: afterwards it is in none of the three collections. *)
Theorem remove_task_removes_in_reachable_world
  (answers : event -> option exn) (hs : list hook) (ws : list world) :
  history hs (VolatileTaskQueue.__init__ answers) = Some ws ->
  forall w, In w (VolatileTaskQueue.__init__ answers :: ws) ->
  forall task,
    at_most_once task w = true /\
    absent task (snd (call 1 VolatileTaskQueue.mro "_remove_task" [task] w))
    = true.
Proof.
  intros Hhist w Hin task.
  pose proof (reachable_recorded_once answers hs ws Hhist w Hin task) as Hone.
  unfold total, occurrences in Hone. simpl in Hone.
  assert (forall c, count_occ val_eq_dec (get c w) task <= 1) as Hc
    by (intros [| |]; simpl; lia).
  split; [apply at_most_once_spec; exact Hc|].
  rewrite volatile_call_remove, remove_task_discards. apply absent_spec.
  intros c. specialize (Hc c).
  destruct c; simpl in *; rewrite list_discard_count;
    destruct (val_eq_dec task task); try congruence; lia.
Qed.

Lemma remove_task_removes_in_reachable_world_witness :
  let hs := [RecordWaiting task1; RecordWaiting task2; RecordRunning task1] in
  exists ws w,
    history hs (VolatileTaskQueue.__init__ no_faults) = Some ws /\
    In w (VolatileTaskQueue.__init__ no_faults :: ws) /\
    list_contains task1 (_running_tasks w) = true /\
    at_most_once task1 w = true /\
    absent task1 (snd (call 1 VolatileTaskQueue.mro "_remove_task" [task1] w))
    = true.
Proof.
  cbv zeta. eexists. exists (mkWorld [task2] [task1] [] 0 [] no_faults).
  split; [reflexivity|].
  split; [simpl; tauto|]. split; [reflexivity|].
  eapply (remove_task_removes_in_reachable_world no_faults
            [RecordWaiting task1; RecordWaiting task2; RecordRunning task1]).
  - reflexivity.
  - simpl; tauto.
Defined.

(** * Further properties of the scheduling queue *)

Lemma fifo_enqueue_outcome
  (depth cycles : nat) (t : Task.t) (w : world) :
  call (S (S depth)) (FifoTaskQueue.mro cycles) "enqueue" [VTask t] w
  = match answers w (SetQueue t) with
    | Some e => (Raise e, with_events [SetQueue t] w)
    | None =>
        match answers w (TaskWaiting t) with
        | Some e => (Raise e, with_events [SetQueue t; TaskWaiting t] w)
        | None =>
            (returned_none,
             with_events [SetQueue t; TaskWaiting t]
               (with_collections (_waiting_tasks w ++ [VTask t])
                                 (_running_tasks w) (_complete_tasks w) w))
        end
    end.
Proof.
  change (call (S (S depth)) (FifoTaskQueue.mro cycles) "enqueue" [VTask t] w)
    with (SchedulingTaskQueue.enqueue
            (call (S depth) (FifoTaskQueue.mro cycles)) (VTask t) w).
  unfold SchedulingTaskQueue.enqueue.
  change (RLock.method "acquire") with RLock.acquire.
  change (RLock.method "release") with RLock.release.
  unfold try_finally, bind, RLock.acquire, set_queue, task_waiting,
    collaborator, with_events, with_collections.
  simpl.
  destruct (answers w (SetQueue t)) as [e|]; [reflexivity|].
  simpl.
  destruct (answers w (TaskWaiting t)) as [e|];
    simpl; rewrite <- app_assoc; reflexivity.
Qed.

(** X9: [enqueue] on a scheduling queue with memory-resident storage.
    It sets the task's queue, tells the task that it waits and appends it
    to the waiting list, in that order, and returns [None].  If setting
    the queue or [task.waiting()] raises, the exception comes out and the
    task is not recorded.  In every case the lock is back where it was
    and the running and complete lists are untouched. *)
Theorem enqueue_records_waiting
  (depth cycles : nat) (t : Task.t) (w : world) :
  call (S (S depth)) (FifoTaskQueue.mro cycles) "enqueue" [VTask t] w
  = match answers w (SetQueue t) with
    | Some e => (Raise e, with_events [SetQueue t] w)
    | None =>
        match answers w (TaskWaiting t) with
        | Some e => (Raise e, with_events [SetQueue t; TaskWaiting t] w)
        | None =>
            (returned_none,
             with_events [SetQueue t; TaskWaiting t]
               (with_collections (_waiting_tasks w ++ [VTask t])
                                 (_running_tasks w) (_complete_tasks w) w))
        end
    end.
Proof. apply fifo_enqueue_outcome. Qed.

Lemma fifo_run_outcome
  (depth cycles : nat) (t : Task.t) (w : world) :
  call (S (S depth)) (FifoTaskQueue.mro cycles) "run" [VTask t] w
  = if list_contains (VTask t) (_waiting_tasks w) then
      (match answers w (ThreadStart t) with
       | Some e => Raise e
       | None => returned_none
       end,
       with_events [ThreadStart t]
         (with_collections (list_discard (VTask t) (_waiting_tasks w))
                           (_running_tasks w ++ [VTask t])
                           (_complete_tasks w) w))
    else (Raise ValueError, w).
Proof.
  change (call (S (S depth)) (FifoTaskQueue.mro cycles) "run" [VTask t] w)
    with (SchedulingTaskQueue.run
            (call (S depth) (FifoTaskQueue.mro cycles)) (VTask t) w).
  unfold SchedulingTaskQueue.run.
  change (RLock.method "acquire") with RLock.acquire.
  change (RLock.method "release") with RLock.release.
  change (call (S depth) (FifoTaskQueue.mro cycles) "_running_task" [VTask t])
    with (VolatileTaskQueue._running_task
            (call depth (FifoTaskQueue.mro cycles)) (VTask t)).
  unfold try_finally, RLock.acquire, bind.
  destruct (list_contains (VTask t) (_waiting_tasks w)) eqn:Hin.
  - rewrite running_task_moves by exact Hin.
    unfold thread_start, collaborator, with_events, with_collections.
    simpl. destruct (answers w (ThreadStart t)); reflexivity.
  - rewrite running_task_raises by exact Hin.
    destruct w; reflexivity.
Qed.

(** X10: [run] on a scheduling queue with memory-resident storage.  A
    task that is not waiting is not run: ValueError comes out, no thread
    is started and the world is as before.  A waiting task is moved to
    the end of the running list first and its thread started next; if
    starting the thread raises, the exception comes out and the task
    stays recorded as running.  In every case the lock is back where it
    was. *)
Theorem run_moves_then_starts_thread
  (depth cycles : nat) (t : Task.t) (w : world) :
  call (S (S depth)) (FifoTaskQueue.mro cycles) "run" [VTask t] w
  = if list_contains (VTask t) (_waiting_tasks w) then
      (match answers w (ThreadStart t) with
       | Some e => Raise e
       | None => returned_none
       end,
       with_events [ThreadStart t]
         (with_collections (list_discard (VTask t) (_waiting_tasks w))
                           (_running_tasks w ++ [VTask t])
                           (_complete_tasks w) w))
    else (Raise ValueError, w).
Proof. apply fifo_run_outcome. Qed.

Lemma fifo_complete_outcome
  (depth cycles : nat) (task : val) (w : world) :
  call (S (S depth)) (FifoTaskQueue.mro cycles) "complete" [task] w
  = if list_contains task (_running_tasks w) then
      (returned_none,
       with_collections (_waiting_tasks w)
                        (list_discard task (_running_tasks w))
                        (_complete_tasks w ++ [task]) w)
    else (Raise ValueError, w).
Proof.
  change (call (S (S depth)) (FifoTaskQueue.mro cycles) "complete" [task] w)
    with (SchedulingTaskQueue.complete
            (call (S depth) (FifoTaskQueue.mro cycles)) task w).
  unfold SchedulingTaskQueue.complete.
  change (RLock.method "acquire") with RLock.acquire.
  change (RLock.method "release") with RLock.release.
  change (call (S depth) (FifoTaskQueue.mro cycles) "_complete_task" [task])
    with (VolatileTaskQueue._complete_task
            (call depth (FifoTaskQueue.mro cycles)) task).
  unfold try_finally, RLock.acquire, bind.
  destruct (list_contains task (_running_tasks w)) eqn:Hin.
  - rewrite complete_task_moves by exact Hin. reflexivity.
  - rewrite complete_task_raises by exact Hin.
    destruct w; reflexivity.
Qed.

(** X11: [complete] on a scheduling queue with memory-resident storage
    moves a running task to the end of the complete list and returns
    [None]; on a task that is not running it raises ValueError and leaves
    the world as it was.  In both cases the lock is back where it was. *)
Theorem complete_moves_running_task
  (depth cycles : nat) (task : val) (w : world) :
  call (S (S depth)) (FifoTaskQueue.mro cycles) "complete" [task] w
  = if list_contains task (_running_tasks w) then
      (returned_none,
       with_collections (_waiting_tasks w)
                        (list_discard task (_running_tasks w))
                        (_complete_tasks w ++ [task]) w)
    else (Raise ValueError, w).
Proof. apply fifo_complete_outcome. Qed.

(** X12: the life of a task on a scheduling queue with memory-resident
    storage.  For a task that is neither waiting nor running, and
    collaborators that answer, [enqueue], [run] and [complete] in a row
    all return [None]; the task ends at the end of the complete list, the
    waiting and running lists are what they were, the lock is where it
    was, and the task has been given its queue, told to wait and handed
    to a thread, in that order. *)
Theorem enqueue_run_complete_lifecycle
  (depth cycles : nat) (t : Task.t) (w : world) :
  list_contains (VTask t) (_waiting_tasks w) = false ->
  list_contains (VTask t) (_running_tasks w) = false ->
  answers w (SetQueue t) = None ->
  answers w (TaskWaiting t) = None ->
  answers w (ThreadStart t) = None ->
  calls (S (S depth)) (FifoTaskQueue.mro cycles)
        [("enqueue", [VTask t]); ("run", [VTask t]); ("complete", [VTask t])]
        w
  = ([returned_none; returned_none; returned_none],
     with_events [SetQueue t; TaskWaiting t; ThreadStart t]
       (with_collections (_waiting_tasks w) (_running_tasks w)
                         (_complete_tasks w ++ [VTask t]) w)).
Proof.
  intros Hw Hr Hq Ha Hs. apply not_contains_count in Hw, Hr.
  rewrite !calls_cons.
  rewrite fifo_enqueue_outcome, Hq, Ha. cbn [fst snd].
  rewrite fifo_run_outcome.
  cbn [with_events with_collections _waiting_tasks _running_tasks
       _complete_tasks lock_level trace answers].
  change (_waiting_tasks w ++ [VTask t])
    with (list_append (_waiting_tasks w) (VTask t)).
  rewrite contains_append, Hs. cbn [fst snd].
  rewrite fifo_complete_outcome.
  cbn [with_events with_collections _waiting_tasks _running_tasks
       _complete_tasks lock_level trace answers].
  change (_running_tasks w ++ [VTask t])
    with (list_append (_running_tasks w) (VTask t)).
  rewrite contains_append. cbn [fst snd calls].
  rewrite !list_discard_append_absent by assumption.
  unfold with_events, with_collections. cbn.
  rewrite <- app_assoc. reflexivity.
Qed.

Lemma enqueue_run_complete_lifecycle_witness :
  let t := Task.mk 1 "t1" in
  list_contains (VTask t) (_waiting_tasks empty_world) = false /\
  list_contains (VTask t) (_running_tasks empty_world) = false /\
  calls 2 (FifoTaskQueue.mro 1)
        [("enqueue", [VTask t]); ("run", [VTask t]); ("complete", [VTask t])]
        empty_world
  = ([returned_none; returned_none; returned_none],
     with_events [SetQueue t; TaskWaiting t; ThreadStart t]
       (with_collections [] [] [VTask t] empty_world)).
Proof.
  cbv zeta. split; [reflexivity|]. split; [reflexivity|].
  apply (enqueue_run_complete_lifecycle 0 1 (Task.mk 1 "t1") empty_world);
    reflexivity.
Defined.

(** X13: a scheduling queue without storage of its own, or on top of the
    database-resident queue, admits nothing.  [enqueue] gives the task its
    queue and tells it that it waits, and then fails with
    NotImplementedError in [_waiting_task]: the task has been told but is
    recorded nowhere.  [run] and [complete] fail the same way before
    anything happens; no thread is started.  The lock is given back each
    time. *)
Theorem scheduling_without_storage_admits_nothing
  (depth cycles : nat) (t : Task.t) (w : world) :
  let plain := call (S (S depth)) (SchedulingTaskQueue.mro cycles) in
  let durable := call (S (S depth)) (scheduling_persistent_mro cycles) in
  let told :=
    match answers w (SetQueue t) with
    | Some e => (Raise e, with_events [SetQueue t] w)
    | None =>
        (match answers w (TaskWaiting t) with
         | Some e => Raise e
         | None => Raise NotImplementedError
         end, with_events [SetQueue t; TaskWaiting t] w)
    end in
  (plain "enqueue" [VTask t] w = told /\
   durable "enqueue" [VTask t] w = told) /\
  (plain "run" [VTask t] w = (Raise NotImplementedError, w) /\
   durable "run" [VTask t] w = (Raise NotImplementedError, w)) /\
  (plain "complete" [VTask t] w = (Raise NotImplementedError, w) /\
   durable "complete" [VTask t] w = (Raise NotImplementedError, w)).
Proof.
  cbv zeta. simpl.
  unfold SchedulingTaskQueue.enqueue, SchedulingTaskQueue.run,
    SchedulingTaskQueue.complete.
  change (RLock.method "acquire") with RLock.acquire.
  change (RLock.method "release") with RLock.release.
  unfold try_finally, bind, RLock.acquire, set_queue, task_waiting,
    collaborator, with_events.
  simpl.
  destruct (answers w (SetQueue t)); simpl;
    [|destruct (answers w (TaskWaiting t)); simpl; rewrite <- !app_assoc];
    destruct w; repeat split.
Qed.

(** X14: [_dispatch] takes the lock and never gives it back.  On a
    derived queue with the default hooks the loop ends in its first
    cycle, and whether it ends or is followed for any number of cycles,
    the lock is held once more than before the call. *)
Theorem dispatch_keeps_the_lock
  (depth cycles : nat) (w : world) :
  lock_level (snd (call (S (S depth)) (FifoTaskQueue.mro cycles)
                        "_dispatch" [] w))
  = S (lock_level w).
Proof.
  destruct cycles as [|n]; [reflexivity|].
  simpl. unfold SchedulingTaskQueue._dispatch. simpl.
  unfold SchedulingTaskQueue.dispatch_cycle, bind, RLock.acquire,
    Condition.wait, collaborator. simpl.
  destruct (answers w ConditionWait); reflexivity.
Qed.

(** X15: the search loop in the body of [find], taken by itself.  Over a
    list of tasks it returns the first task whose [id] equals the id
    asked for, whatever follows it, and [None] when no task has that id;
    it changes nothing. *)
Theorem find_loop_returns_first_match
  (task_id : val) (before after : list Task.t) (t : Task.t) (w : world) :
  Forall (fun u => VStr (Task.id u) <> task_id) before ->
  (VStr (Task.id t) = task_id ->
   SchedulingTaskQueue.find_loop task_id (map VTask (before ++ t :: after)) w
   = (Return (RVal (VTask t)), w)) /\
  SchedulingTaskQueue.find_loop task_id (map VTask before) w
  = (returned_none, w).
Proof.
  induction 1 as [|u before Hu Hbefore IH]; simpl.
  - split; [|reflexivity].
    intros <-. unfold val_eqb.
    destruct (val_eq_dec _ _); [reflexivity | congruence].
  - assert (val_eqb (VStr (Task.id u)) task_id = false) as E.
    { unfold val_eqb.
      destruct (val_eq_dec (VStr (Task.id u)) task_id);
        [contradiction | reflexivity]. }
    rewrite E. exact IH.
Qed.

Lemma find_loop_returns_first_match_witness :
  let a := Task.mk 1 "a" in
  let b := Task.mk 2 "b" in
  let b' := Task.mk 3 "b" in
  Forall (fun u => VStr (Task.id u) <> VStr "b") [a] /\
  SchedulingTaskQueue.find_loop (VStr "b") (map VTask ([a] ++ b :: [b']))
                                empty_world
  = (Return (RVal (VTask b)), empty_world) /\
  SchedulingTaskQueue.find_loop (VStr "b") (map VTask [a]) empty_world
  = (returned_none, empty_world).
Proof.
  cbv zeta.
  assert (Forall (fun u => VStr (Task.id u) <> VStr "b") [Task.mk 1 "a"])
    as Hbefore by (repeat constructor; discriminate).
  split; [exact Hbefore|].
  destruct (find_loop_returns_first_match
              (VStr "b") [Task.mk 1 "a"] [Task.mk 3 "b"] (Task.mk 2 "b")
              empty_world Hbefore) as [Hfound Hnone].
  split; [apply Hfound; reflexivity | exact Hnone].
Defined.

(** * Further properties of the no-frills queue *)

Lemma simple_call_keeps_nothing
  (depth : nat) (name : string) (args : list val) (w : world) :
  let w' := snd (call depth SimpleTaskQueue.mro name args w) in
  (forall c, get c w' = get c w) /\ lock_level w' = lock_level w.
Proof.
  cbv zeta. destruct depth as [|d]; [split; reflexivity|].
  unfold SimpleTaskQueue.mro, SimpleTaskQueue.dict, TaskQueue.dict.
  cbn [call lookup assoc].
  repeat match goal with
         | |- context [String.eqb ?n name] => destruct (String.eqb n name)
         end;
    try (split; [intros []|]; reflexivity);
    destruct args as [|x [|y args]];
    try (split; [intros []|]; reflexivity);
    unfold SimpleTaskQueue.enqueue, SimpleTaskQueue.run, task_waiting,
      task_run, bind, collaborator;
    destruct x as [|s|t]; try (split; [intros []|]; reflexivity);
    match goal with
    | |- context [answers w ?ev] => destruct (answers w ev)
    end; split; try (intros []); reflexivity.
Qed.

(** X16: the no-frills queue keeps nothing.  Whatever is called on it, in
    whatever order and with whatever arguments, the three collections and
    the lock are afterwards what they were, and [find] returns [None] for
    every id. *)
Theorem simple_queue_keeps_nothing
  (depth : nat) (cs : list (string * list val)) (task_id : val) (w : world) :
  let w' := snd (calls depth SimpleTaskQueue.mro cs w) in
  (forall c, get c w' = get c w) /\
  lock_level w' = lock_level w /\
  call (S depth) SimpleTaskQueue.mro "find" [task_id] w' = (returned_none, w').
Proof.
  cbv zeta. revert w. induction cs as [|[name args] rest IH]; intros w.
  - repeat split.
  - rewrite calls_cons. cbn [snd].
    destruct (simple_call_keeps_nothing depth name args w) as [Hc Hl].
    destruct (IH (snd (call depth SimpleTaskQueue.mro name args w)))
      as (Hc' & Hl' & Hf).
    split; [intros c; rewrite Hc', Hc; reflexivity|].
    split; [rewrite Hl', Hl; reflexivity | exact Hf].
Qed.

(** * Admitting a task twice *)

Lemma list_remove_first (x : val) (l rest : list val) :
  count_occ val_eq_dec l x = 0 ->
  list_remove x (l ++ x :: rest) = Some (l ++ rest).
Proof.
  induction l as [|y l IH]; simpl; intros H.
  - unfold val_eqb. destruct (val_eq_dec x x); congruence.
  - unfold val_eqb. destruct (val_eq_dec y x); [discriminate|].
    rewrite IH by assumption. reflexivity.
Qed.


(** X17: [enqueue] does not look whether the task is already queued.  A
    task in no collection that is enqueued twice is recorded as waiting
    twice, and after one [run] it is waiting and running at once: it is
    in two collections. *)
Theorem enqueue_twice_then_run_in_two_collections
  (depth cycles : nat) (t : Task.t) (w : world) :
  absent (VTask t) w = true ->
  answers w (SetQueue t) = None ->
  answers w (TaskWaiting t) = None ->
  answers w (ThreadStart t) = None ->
  let queue := FifoTaskQueue.mro cycles in
  let twice :=
    snd (calls (S (S depth)) queue
               [("enqueue", [VTask t]); ("enqueue", [VTask t])] w) in
  let then_run :=
    snd (call (S (S depth)) queue "run" [VTask t] twice) in
  _waiting_tasks twice = _waiting_tasks w ++ [VTask t; VTask t] /\
  _waiting_tasks then_run = _waiting_tasks w ++ [VTask t] /\
  _running_tasks then_run = _running_tasks w ++ [VTask t] /\
  holders (VTask t) then_run = 2.
Proof.
  intros Habs Hq Ha Hs. cbv zeta.
  rewrite absent_spec in Habs.
  pose proof (Habs Waiting) as Hw. pose proof (Habs Running) as Hr.
  pose proof (Habs Complete) as Hc. simpl in Hw, Hr, Hc.
  set (W1 := with_events [SetQueue t; TaskWaiting t]
               (with_collections (_waiting_tasks w ++ [VTask t])
                                 (_running_tasks w) (_complete_tasks w) w)).
  set (W2 := with_events [SetQueue t; TaskWaiting t]
               (with_collections (_waiting_tasks W1 ++ [VTask t])
                                 (_running_tasks W1) (_complete_tasks W1) W1)).
  assert (call (S (S depth)) (FifoTaskQueue.mro cycles) "enqueue" [VTask t] w
          = (returned_none, W1)) as E1
    by (rewrite fifo_enqueue_outcome, Hq, Ha; reflexivity).
  assert (call (S (S depth)) (FifoTaskQueue.mro cycles) "enqueue" [VTask t] W1
          = (returned_none, W2)) as E2.
  { rewrite fifo_enqueue_outcome. change (answers W1) with (answers w).
    rewrite Hq, Ha. reflexivity. }
  rewrite !calls_cons. cbn [snd calls]. rewrite E1. cbn [snd].
  rewrite E2. cbn [snd].
  rewrite fifo_run_outcome.
  change (answers W2) with (answers w).
  change (_waiting_tasks W2)
    with (list_append (list_append (_waiting_tasks w) (VTask t)) (VTask t)).
  change (_running_tasks W2) with (_running_tasks w).
  change (_complete_tasks W2) with (_complete_tasks w).
  rewrite contains_append. cbn [snd with_events with_collections
    _waiting_tasks _running_tasks _complete_tasks].
  assert (list_discard (VTask t)
            (list_append (list_append (_waiting_tasks w) (VTask t)) (VTask t))
          = _waiting_tasks w ++ [VTask t]) as Hd.
  { unfold list_discard, list_append. rewrite <- app_assoc.
    change ([VTask t] ++ [VTask t]) with (VTask t :: [VTask t]).
    rewrite list_remove_first by exact Hw. reflexivity. }
  rewrite Hd. unfold list_append. rewrite <- app_assoc.
  repeat split.
  unfold holders. cbn [filter get _waiting_tasks _running_tasks
                       _complete_tasks with_events with_collections].
  rewrite !list_contains_count, !count_occ_app, Hw, Hr, Hc.
  cbn [count_occ].
  destruct (val_eq_dec (VTask t) (VTask t)); [reflexivity | congruence].
Qed.

Lemma enqueue_twice_then_run_in_two_collections_witness :
  let t := Task.mk 1 "t1" in
  let queue := FifoTaskQueue.mro 1 in
  let twice :=
    snd (calls 2 queue [("enqueue", [VTask t]); ("enqueue", [VTask t])]
               empty_world) in
  let then_run := snd (call 2 queue "run" [VTask t] twice) in
  absent (VTask t) empty_world = true /\
  _waiting_tasks twice = [VTask t; VTask t] /\
  _waiting_tasks then_run = [VTask t] /\
  _running_tasks then_run = [VTask t] /\
  holders (VTask t) then_run = 2.
Proof.
  cbv zeta. split; [reflexivity|].
  apply (enqueue_twice_then_run_in_two_collections
           0 1 (Task.mk 1 "t1") empty_world); reflexivity.
Defined.
